(** * adb-multiplexer: the orchestrator of [adb-multiplexer.js]

    A shallow embedding of the script: the one-shot run over the devices
    that are connected now, the listener for devices that are connected
    later, and the formatting helpers.  The script talks to the console,
    to the device detector and to the devices; these calls are recorded
    as a chronological list of effects, and the host (adb, the terminal
    colours) is a parameter of the development. *)

From Stdlib Require Import String Ascii List Bool Arith ZArith Lia.
Import ListNotations.
Local Open Scope list_scope.
Local Open Scope string_scope.

(** ** Devices *)

Module Device.

Inductive State := Online | Offline | Unauthorized.

Record t := mk { id : string; model : string; state : State }.

(** Modelled from the spec: [modules/Device] is not part of the sources;
    [isOnline()] is true iff the device's state is [Online]. *)
Definition isOnline (device : t) : bool :=
  match state device with
  | Online => true
  | _ => false
  end.

End Device.

(** ** The host

    What the script cannot decide by itself: the answers of adb (the
    device listing behind [DeviceDetector.getDevices] and the command
    behind [Device.executeCommandSync], each of which either returns or
    throws a string and may change the outside world), the status line of
    a device, and the getters [.red], [.green] and [.cyan] that the
    [colors] package adds to strings. *)

Record Host := {
  World : Type;
  adb_devices : World -> (list Device.t + string) * World;
  adb_exec : Device.t -> string -> World -> (string + string) * World;
  toStatusString : Device.t -> string;
  red : string -> string;
  green : string -> string;
  cyan : string -> string
}.

(** The parsed command line ([args.parseArgs()]). *)
Record Params := {
  command : string;
  continue : bool;
  no_color : bool
}.

Inductive EventName := devicesAdded | devicesChanged.

(** The functions the script registers as listeners; it has one. *)
Inductive Listener := newOrChangedDevicesListener_fn.

Definition EventName_eqb (a b : EventName) : bool :=
  match a, b with
  | devicesAdded, devicesAdded => true
  | devicesChanged, devicesChanged => true
  | _, _ => false
  end.

(** What the script does to the outside, in the order it does it.
    [Stdout s] is [console.log] writing [s] and a newline, [Stderr s] is
    [console.error]. *)
Inductive Effect :=
| Stdout (text : string)
| Stderr (text : string)
| Queried
| Executed (device : Device.t) (cmd : string)
| Subscribed (event : EventName) (listener : Listener)
| WatchStarted
| WatchStopped
| Exited (code : Z).

(** How a piece of the script ends: it returns, it throws a string, or
    the process is gone ([process.exit]). *)
Inductive Completion (A : Type) :=
| Normal (value : A)
| Thrown (error : string)
| Terminated (code : Z).

Arguments Normal {A} value.
Arguments Thrown {A} error.
Arguments Terminated {A} code.

(** Modelled from the spec: [modules/DeviceDetector] is not part of the
    sources; the detector is [Idle] or [Watching] and keeps the listeners
    registered with [on]. *)
Record Detector := {
  listeners : list (EventName * Listener);
  watching : bool
}.

(** The devices [executeCommandSync] was called on, in the order of the
    calls, read off a list of effects. *)
Fixpoint executions (trace : list Effect) : list Device.t :=
  match trace with
  | [] => []
  | Executed device _ :: rest => device :: executions rest
  | _ :: rest => executions rest
  end.

Definition banner : string := "========================================".

(** The text of [console.log('Result for', device.id, '(' + device.model + ')')]. *)
Definition label (device : Device.t) : string :=
  "Result for " ++ Device.id device ++ " (" ++ Device.model device ++ ")".

(** ** Array methods *)

(** [Array.prototype.reduce] with an initial value.  The callback gets
    the accumulator, the element, its index and the array; the array is
    threaded through the calls, so a callback that changes it can be
    written.  The indices [0 .. length-1] of the array at the time of the
    call are visited, and an index that is no longer there is skipped. *)
Fixpoint reduce_loop {A B : Type}
    (callback : B -> A -> nat -> list A -> B * list A)
    (remaining index : nat) (accumulator : B) (array : list A) : B * list A :=
  match remaining with
  | O => (accumulator, array)
  | S remaining' =>
      match nth_error array index with
      | Some element =>
          let '(accumulator', array') := callback accumulator element index array in
          reduce_loop callback remaining' (S index) accumulator' array'
      | None => reduce_loop callback remaining' (S index) accumulator array
      end
  end.

Definition reduce {A B : Type}
    (callback : B -> A -> nat -> list A -> B * list A)
    (initialValue : B) (array : list A) : B * list A :=
  reduce_loop callback (length array) 0 initialValue array.

(** ** A scripted host, for concrete runs

    The world is a script: what the device listing answers, and the ids
    of the devices on which the command fails.  Colours are the ANSI
    escapes of the [colors] package. *)

Record Script := {
  listing : list Device.t + string;
  failing : list string
}.

Definition esc : string := String (ascii_of_nat 27) "".

Definition ansi (code : string) (s : string) : string :=
  esc ++ "[" ++ code ++ "m" ++ s ++ esc ++ "[39m".

Definition status_line (device : Device.t) : string :=
  Device.id device ++ " " ++ Device.model device ++ " " ++
  match Device.state device with
  | Device.Online => "device"
  | Device.Offline => "offline"
  | Device.Unauthorized => "unauthorized"
  end.

Definition scripted : Host := {|
  World := Script;
  adb_devices := fun w => (listing w, w);
  adb_exec := fun device cmd w =>
    (if existsb (String.eqb (Device.id device)) (failing w)
     then inr ("error: " ++ cmd ++ " failed on " ++ Device.id device)
     else inl (cmd ++ " done on " ++ Device.id device), w);
  toStatusString := status_line;
  red := ansi "31";
  green := ansi "32";
  cyan := ansi "36"
|}.

Definition pixel : Device.t := Device.mk "A" "Pixel" Device.Online.
Definition nexus : Device.t := Device.mk "B" "Nexus" Device.Online.
Definition galaxy : Device.t := Device.mk "C" "Galaxy" Device.Offline.
Definition moto : Device.t := Device.mk "D" "Moto" Device.Unauthorized.
Definition tablet : Device.t := Device.mk "E" "Tab" Device.Online.

Definition once : Params := {| command := "adb install app.apk"; continue := false; no_color := false |}.
Definition forever : Params := {| command := "adb install app.apk"; continue := true; no_color := false |}.

(** ** The script *)

Section Multiplexer.

Context (H : Host).

Record Process := {
  world : World H;
  detector : Detector
}.

(** Where the script starts: nothing registered, no watch. *)
Definition boot (w : World H) : Process :=
  {| world := w; detector := {| listeners := []; watching := false |} |}.

Record Run (A : Type) := {
  effects : list Effect;
  completion : Completion A;
  final : Process
}.

Arguments effects {A} _.
Arguments completion {A} _.
Arguments final {A} _.

Definition M (A : Type) : Type := Process -> Run A.

Definition ret {A : Type} (a : A) : M A :=
  fun p => {| effects := []; completion := Normal a; final := p |}.

Definition bind {A B : Type} (m : M A) (k : A -> M B) : M B :=
  fun p =>
    let r := m p in
    match completion r with
    | Normal a =>
        let r' := k a (final r) in
        {| effects := (effects r ++ effects r')%list;
           completion := completion r';
           final := final r' |}
    | Thrown error =>
        {| effects := effects r; completion := Thrown error; final := final r |}
    | Terminated code =>
        {| effects := effects r; completion := Terminated code; final := final r |}
    end.

(** [try { body } catch (error) { handler }] *)
Definition try_catch {A : Type} (body : M A) (handler : string -> M A) : M A :=
  fun p =>
    let r := body p in
    match completion r with
    | Thrown error =>
        let r' := handler error (final r) in
        {| effects := (effects r ++ effects r')%list;
           completion := completion r';
           final := final r' |}
    | _ => r
    end.

Notation "x <- m ;; k" := (bind m (fun x => k))
  (at level 61, m at next level, right associativity).
Notation "m ;; k" := (bind m (fun _ => k))
  (at level 61, right associativity).

(** [console.log(a, b, ...)] with string arguments, the first without
    format directives: the arguments separated by single spaces. *)
Definition console_log (args : list string) : M unit :=
  fun p => {| effects := [Stdout (String.concat " " args)];
              completion := Normal tt; final := p |}.

Definition console_error (args : list string) : M unit :=
  fun p => {| effects := [Stderr (String.concat " " args)];
              completion := Normal tt; final := p |}.

Definition process_exit {A : Type} (code : Z) : M A :=
  fun p => {| effects := [Exited code]; completion := Terminated code; final := p |}.

(** [Array.prototype.forEach] with a callback that has effects. *)
Fixpoint forEach {A : Type} (callback : A -> M unit) (array : list A) : M unit :=
  match array with
  | [] => ret tt
  | element :: rest => callback element ;; forEach callback rest
  end.

(** *** The collaborators *)

(** Modelled from the spec: [modules/Device] is not part of the sources;
    [executeCommandSync] runs the command against the device, blocks, and
    returns the captured output or throws. *)
Definition executeCommandSync (device : Device.t) (cmd : string) : M string :=
  fun p =>
    let '(answer, w) := adb_exec H device cmd (world p) in
    {| effects := [Executed device cmd];
       completion := match answer with
                     | inl result => Normal result
                     | inr error => Thrown error
                     end;
       final := {| world := w; detector := detector p |} |}.

(** Modelled from the spec: [modules/DeviceDetector] is not part of the
    sources; [getDevices] asks the host for the devices and returns them
    or throws, and does not touch the watch. *)
Definition getDevices : M (list Device.t) :=
  fun p =>
    let '(answer, w) := adb_devices H (world p) in
    {| effects := [Queried];
       completion := match answer with
                     | inl devices => Normal devices
                     | inr error => Thrown error
                     end;
       final := {| world := w; detector := detector p |} |}.

(** Modelled from the spec: [modules/DeviceDetector] is not part of the
    sources; [on] registers a listener for an event. *)
Definition on (event : EventName) (listener : Listener) : M unit :=
  fun p =>
    {| effects := [Subscribed event listener];
       completion := Normal tt;
       final := {| world := world p;
                   detector := {| listeners := (listeners (detector p) ++ [(event, listener)])%list;
                                  watching := watching (detector p) |} |} |}.

(** Modelled from the spec: [modules/DeviceDetector] is not part of the
    sources; [watch] takes the detector from [Idle] to [Watching] and does
    nothing more when it is watching already. *)
Definition watch : M unit :=
  fun p =>
    {| effects := [WatchStarted];
       completion := Normal tt;
       final := {| world := world p;
                   detector := {| listeners := listeners (detector p);
                                  watching := true |} |} |}.

(** Modelled from the spec: [modules/DeviceDetector] is not part of the
    sources; [unwatch] takes the detector back to [Idle] and does nothing
    more when it is idle already. *)
Definition unwatch : M unit :=
  fun p =>
    {| effects := [WatchStopped];
       completion := Normal tt;
       final := {| world := world p;
                   detector := {| listeners := listeners (detector p);
                                  watching := false |} |} |}.

(** *** Helper functions of the script *)

Definition status_entry (device : Device.t) : string :=
  "- " ++ toStatusString H device ++ "
".

Definition formatDeviceList_reduce (deviceList : list Device.t) : string * list Device.t :=
  reduce (fun previousValue device (_ : nat) array =>
            (((previousValue ++ "- ") ++ toStatusString H device) ++ "
", array))
         "" deviceList.

Definition formatDeviceList (deviceList : list Device.t) : string :=
  fst (formatDeviceList_reduce deviceList).

Definition executeCommandOnDevices (devices : list Device.t) (cmd : string) : M unit :=
  forEach (fun device =>
    console_log [] ;;
    console_log ["========================================"] ;;
    console_log ["Result for"; Device.id device; ("(" ++ Device.model device) ++ ")"] ;;
    console_log ["========================================"] ;;
    result <- executeCommandSync device cmd ;;
    console_log [cyan H result]) devices.

Definition onlineDevices (devices : list Device.t) : list Device.t :=
  filter (fun device => Device.isOnline device) devices.

Definition offlineDevices (devices : list Device.t) : list Device.t :=
  filter (fun device => negb (Device.isOnline device)) devices.

Definition executeForOnlineDevices (devices : list Device.t) (cmd : string) : M unit :=
  if (0 <? length (onlineDevices devices))%nat then
    console_log ["devices detected:
" ++ green H (formatDeviceList (onlineDevices devices))] ;;
    executeCommandOnDevices (onlineDevices devices) cmd
  else if (0 <? length (offlineDevices devices))%nat then
    console_log ["offline devices detected:
" ++ red H (formatDeviceList (offlineDevices devices))]
  else
    console_error [red H "no devices detected
"].

Definition newOrChangedDevicesListener (params : Params) (devices : list Device.t) : M unit :=
  try_catch
    (executeForOnlineDevices devices (command params))
    (fun error => console_error [red H error] ;; unwatch).

Definition executeForFutureDevices (cmd : string) : M unit :=
  on devicesAdded newOrChangedDevicesListener_fn ;;
  on devicesChanged newOrChangedDevicesListener_fn ;;
  watch.

(** The body of the [try] block at the top level. *)
Definition initialRun (params : Params) : M unit :=
  devices <- getDevices ;;
  executeForOnlineDevices devices (command params).

(** The top level of the script, after the arguments are parsed. *)
Definition main (params : Params) : M unit :=
  try_catch
    (initialRun params)
    (fun error => console_error [red H error] ;; process_exit 1%Z) ;;
  if continue params then executeForFutureDevices (command params) else ret tt.

(** *** Notifications *)

Definition call (params : Params) (listener : Listener) (devices : list Device.t) : M unit :=
  match listener with
  | newOrChangedDevicesListener_fn => newOrChangedDevicesListener params devices
  end.

Definition subscribers (event : EventName) (d : Detector) : list Listener :=
  map snd (filter (fun entry => EventName_eqb (fst entry) event) (listeners d)).

(** Modelled from the spec: [modules/DeviceDetector] is not part of the
    sources; a watching detector raises a notification by calling the
    listeners registered for the event, in registration order, with the
    device list of the notification; an idle detector raises none. *)
Definition notify (params : Params) (event : EventName) (devices : list Device.t) : M unit :=
  fun p =>
    if watching (detector p)
    then forEach (fun listener => call params listener devices)
                 (subscribers event (detector p)) p
    else ret tt p.

(** *** Vocabulary of the statements *)

(** What adb answers when the command is run on the devices of a list
    one after the other and succeeds on each: the results and the world
    afterwards.  [None] when it fails on one of them. *)
Fixpoint adb_all (cmd : string) (devices : list Device.t) (w : World H)
    : option (list string * World H) :=
  match devices with
  | [] => Some ([], w)
  | device :: rest =>
      match adb_exec H device cmd w with
      | (inl result, w') =>
          match adb_all cmd rest w' with
          | Some (results, w'') => Some (result :: results, w'')
          | None => None
          end
      | (inr _, _) => None
      end
  end.

(** The four lines printed before the command is run on a device. *)
Definition header (device : Device.t) : list Effect :=
  [Stdout ""; Stdout banner; Stdout (label device); Stdout banner].

(** The header of a device and the call of the command on it. *)
Definition attempt (cmd : string) (device : Device.t) : list Effect :=
  (header device ++ [Executed device cmd])%list.

(** The whole of a device's output when the command succeeds. *)
Definition block (cmd : string) (entry : Device.t * string) : list Effect :=
  (attempt cmd (fst entry) ++ [Stdout (cyan H (snd entry))])%list.

Definition blocks (cmd : string) (devices : list Device.t) (results : list string)
    : list Effect :=
  flat_map (block cmd) (combine devices results).

(** The line that lists the online devices. *)
Definition detected (devices : list Device.t) : Effect :=
  Stdout ("devices detected:
" ++ green H (formatDeviceList (onlineDevices devices))).

(** The concatenation of the status entries of a list, in order. *)
Definition entries (deviceList : list Device.t) : string :=
  fold_right String.append "" (map status_entry deviceList).

(** An effect that is part of the output block of one of the devices of a
    list: a line of its header, the call of the command on it, or the
    line with a result of the command. *)
Definition belongs_to (cmd : string) (devices : list Device.t) (eff : Effect) : Prop :=
  exists device result,
    In device devices /\ In eff (block cmd (device, result)).

(** Console output and calls of the command: the effects that neither
    touch the detector nor end the process. *)
Definition console_or_command (eff : Effect) : bool :=
  match eff with
  | Stdout _ | Stderr _ | Executed _ _ => true
  | _ => false
  end.

(** The two registrations of continuous mode. *)
Definition subscriptions : list (EventName * Listener) :=
  [(devicesAdded, newOrChangedDevicesListener_fn);
   (devicesChanged, newOrChangedDevicesListener_fn)].

End Multiplexer.

Arguments effects {H A} _.
Arguments completion {H A} _.
Arguments final {H A} _.
Arguments world {H} _.
Arguments detector {H} _.

(** A world in which adb lists the device A and the command fails on the
    device B, and the process after the script has started in continuous
    mode there. *)
Definition fragile : Script := {| listing := inl [pixel]; failing := ["B"] |}.

Definition started : Process scripted :=
  final (main scripted forever (boot scripted fragile)).

(** A world in which adb lists three devices and the command succeeds on
    all of them. *)
Definition calm : Script := {| listing := inl [pixel; galaxy; nexus]; failing := [] |}.

(** A world in which adb cannot list the devices. *)
Definition broken : Script :=
  {| listing := inr "error: cannot connect to daemon"; failing := [] |}.

(** [m] is [l] and [r] shuffled together: every element of [m] comes from
    exactly one of them, and each keeps its order. *)
Inductive Interleaving {A : Type} : list A -> list A -> list A -> Prop :=
| Interleaving_nil : Interleaving [] [] []
| Interleaving_left x l r m : Interleaving l r m -> Interleaving (x :: l) r (x :: m)
| Interleaving_right x l r m : Interleaving l r m -> Interleaving l (x :: r) (x :: m).

(** * Properties *)

(** ** Strings and arrays *)

Lemma append_assoc (a b c : string) : (a ++ b) ++ c = a ++ b ++ c.
Proof.
  induction a as [|ch a IH]; simpl; [reflexivity|now rewrite IH].
Qed.

Lemma append_empty_r (a : string) : a ++ "" = a.
Proof.
  induction a as [|ch a IH]; simpl; [reflexivity|now rewrite IH].
Qed.

Lemma label_is_logged (device : Device.t) :
  String.concat " " ["Result for"; Device.id device; ("(" ++ Device.model device) ++ ")"]
  = label device.
Proof. reflexivity. Qed.

Section ArrayFacts.

Context (H : Host).

Lemma reduce_loop_entries (suffix : list Device.t) :
  forall (visited : list Device.t) (accumulator : string),
    reduce_loop (fun previousValue device (_ : nat) array =>
                   (((previousValue ++ "- ") ++ toStatusString H device) ++ "
", array))
                (length suffix) (length visited) accumulator (visited ++ suffix)
    = (accumulator ++ entries H suffix, (visited ++ suffix)%list).
Proof.
  induction suffix as [|device suffix IH]; intros visited accumulator.
  - simpl. now rewrite append_empty_r.
  - cbn [length reduce_loop].
    rewrite nth_error_app2, Nat.sub_diag by lia. cbn [nth_error].
    replace (visited ++ device :: suffix)%list
      with ((visited ++ [device]) ++ suffix)%list
      by now rewrite <- app_assoc.
    replace (S (length visited)) with (length (visited ++ [device])%list)
      by (rewrite length_app; simpl; lia).
    rewrite IH. f_equal.
    unfold entries. cbn [map fold_right]. unfold status_entry.
    rewrite !append_assoc. reflexivity.
Qed.

Lemma formatDeviceList_entries (deviceList : list Device.t) :
  formatDeviceList H deviceList = entries H deviceList.
Proof.
  unfold formatDeviceList, formatDeviceList_reduce, reduce.
  pose proof (reduce_loop_entries deviceList [] "") as E.
  cbn [length app] in E. now rewrite E.
Qed.

Lemma filter_none_online (devices : list Device.t) :
  existsb Device.isOnline devices = false ->
  onlineDevices devices = [] /\ offlineDevices devices = devices.
Proof.
  unfold onlineDevices, offlineDevices.
  induction devices as [|device devices IH]; simpl; [now split|].
  destruct (Device.isOnline device); simpl; [discriminate|].
  intros Hrest. destruct (IH Hrest) as [-> ->]. now split.
Qed.

End ArrayFacts.

(** ** Running the command on a list of devices *)

Section RunFacts.

Context (H : Host).

Lemma executeCommandOnDevices_nil (cmd : string) (p : Process H) :
  executeCommandOnDevices H [] cmd p
  = {| effects := []; completion := Normal tt; final := p |}.
Proof. reflexivity. Qed.

Lemma executeCommandOnDevices_ok (device : Device.t) (rest : list Device.t)
    (cmd : string) (p : Process H) (result : string) (w : World H) :
  adb_exec H device cmd (world p) = (inl result, w) ->
  executeCommandOnDevices H (device :: rest) cmd p
  = let after := executeCommandOnDevices H rest cmd
                   {| world := w; detector := detector p |} in
    {| effects := (block H cmd (device, result) ++ effects after)%list;
       completion := completion after;
       final := final after |}.
Proof.
  intros Hexec. unfold executeCommandOnDevices. cbn [forEach].
  unfold bind, console_log, executeCommandSync. cbn.
  rewrite Hexec. cbn. reflexivity.
Qed.

Lemma executeCommandOnDevices_fail (device : Device.t) (rest : list Device.t)
    (cmd : string) (p : Process H) (error : string) (w : World H) :
  adb_exec H device cmd (world p) = (inr error, w) ->
  executeCommandOnDevices H (device :: rest) cmd p
  = {| effects := attempt cmd device;
       completion := Thrown error;
       final := {| world := w; detector := detector p |} |}.
Proof.
  intros Hexec. unfold executeCommandOnDevices. cbn [forEach].
  unfold bind, console_log, executeCommandSync. cbn.
  rewrite Hexec. cbn. reflexivity.
Qed.

Lemma executeCommandOnDevices_prefix (cmd : string) (pre rest : list Device.t) :
  forall (p : Process H) (results : list string) (w : World H),
    adb_all H cmd pre (world p) = Some (results, w) ->
    executeCommandOnDevices H (pre ++ rest) cmd p
    = let after := executeCommandOnDevices H rest cmd
                     {| world := w; detector := detector p |} in
      {| effects := (blocks H cmd pre results ++ effects after)%list;
         completion := completion after;
         final := final after |}.
Proof.
  induction pre as [|device pre IH]; intros p results w Hall.
  - cbn in Hall. injection Hall as <- <-. destruct p as [w d].
    unfold blocks. cbn [app combine flat_map world detector].
    now destruct (executeCommandOnDevices H rest cmd _).
  - cbn [adb_all] in Hall.
    destruct (adb_exec H device cmd (world p)) as [[result|error] w1] eqn:Hexec;
      [|discriminate].
    destruct (adb_all H cmd pre w1) as [[results1 w2]|] eqn:Hrest; [|discriminate].
    injection Hall as <- <-.
    rewrite <- app_comm_cons, (executeCommandOnDevices_ok _ _ _ _ _ _ Hexec).
    cbn zeta. rewrite (IH {| world := w1; detector := detector p |} results1 w2 Hrest).
    cbn [effects completion final detector].
    unfold blocks. cbn [combine flat_map]. now rewrite <- app_assoc.
Qed.

Lemma adb_all_length (cmd : string) (devices : list Device.t) :
  forall (w w' : World H) (results : list string),
    adb_all H cmd devices w = Some (results, w') ->
    length results = length devices.
Proof.
  induction devices as [|device devices IH]; intros w w' results Hall.
  - cbn in Hall. now injection Hall as <- <-.
  - cbn [adb_all] in Hall.
    destruct (adb_exec H device cmd w) as [[result|error] w1]; [|discriminate].
    destruct (adb_all H cmd devices w1) as [[results1 w2]|] eqn:Hrest; [|discriminate].
    injection Hall as <- <-. cbn. f_equal. eauto.
Qed.

(** Every run of the command over a list either gets through the whole
    list or stops at the first device on which the command fails. *)
Lemma executeCommandOnDevices_cases (cmd : string) (devices : list Device.t) :
  forall p : Process H,
    (exists results w,
        adb_all H cmd devices (world p) = Some (results, w)
        /\ executeCommandOnDevices H devices cmd p
           = {| effects := blocks H cmd devices results;
                completion := Normal tt;
                final := {| world := w; detector := detector p |} |})
    \/ (exists pre dk post results w1 error w2,
        devices = (pre ++ dk :: post)%list
        /\ adb_all H cmd pre (world p) = Some (results, w1)
        /\ adb_exec H dk cmd w1 = (inr error, w2)
        /\ executeCommandOnDevices H devices cmd p
           = {| effects := (blocks H cmd pre results ++ attempt cmd dk)%list;
                completion := Thrown error;
                final := {| world := w2; detector := detector p |} |}).
Proof.
  induction devices as [|device devices IH]; intros p.
  - left. exists [], (world p). split; [reflexivity|]. now destruct p.
  - destruct (adb_exec H device cmd (world p)) as [[result|error] w1] eqn:Hexec.
    + rewrite (executeCommandOnDevices_ok _ _ _ _ _ _ Hexec). cbn zeta.
      destruct (IH {| world := w1; detector := detector p |})
        as [(results & w & Hall & Hrun)
           |(pre & dk & post & results & w2 & e & w3 & Hsplit & Hall & Hfail & Hrun)];
        cbn [world detector] in *; rewrite Hrun; cbn [effects completion final].
      * left. exists (result :: results), w. split; [|reflexivity].
        cbn [adb_all]. now rewrite Hexec, Hall.
      * right. exists (device :: pre), dk, post, (result :: results), w2, e, w3.
        split; [now rewrite Hsplit|].
        split; [cbn [adb_all]; now rewrite Hexec, Hall|].
        split; [exact Hfail|].
        unfold blocks. cbn [combine flat_map]. now rewrite <- app_assoc.
    + right. exists [], device, devices, [], (world p), error, w1.
      split; [reflexivity|]. split; [reflexivity|]. split; [exact Hexec|].
      now rewrite (executeCommandOnDevices_fail _ _ _ _ _ _ Hexec).
Qed.

Lemma executions_app (a b : list Effect) :
  executions (a ++ b) = (executions a ++ executions b)%list.
Proof.
  induction a as [|e a IH]; [reflexivity|].
  destruct e; cbn [app executions]; now rewrite IH.
Qed.

Lemma executions_blocks (cmd : string) (devices : list Device.t) :
  forall results : list string,
    length results = length devices ->
    executions (blocks H cmd devices results) = devices.
Proof.
  induction devices as [|device devices IH]; intros [|result results] Hlen;
    try discriminate; [reflexivity|].
  unfold blocks. cbn [combine flat_map]. rewrite executions_app.
  cbn. f_equal. apply IH. now injection Hlen.
Qed.

Lemma executions_attempt (cmd : string) (device : Device.t) :
  executions (attempt cmd device) = [device].
Proof. reflexivity. Qed.

Lemma nonempty_length {A : Type} (l : list A) :
  l <> [] -> (0 <? length l)%nat = true.
Proof. destruct l; [congruence|reflexivity]. Qed.

End RunFacts.

(** ** The one-shot run *)

Section OneShot.

Context (H : Host).

Lemma executeForOnlineDevices_online (devices : list Device.t) (cmd : string)
    (p : Process H) :
  onlineDevices devices <> [] ->
  executeForOnlineDevices H devices cmd p
  = let run := executeCommandOnDevices H (onlineDevices devices) cmd p in
    {| effects := detected H devices :: effects run;
       completion := completion run;
       final := final run |}.
Proof.
  intros Hsome. unfold executeForOnlineDevices.
  rewrite (nonempty_length _ Hsome). unfold bind, console_log, detected.
  cbn [effects completion final app String.concat]. reflexivity.
Qed.

Lemma executions_run (cmd : string) (devices : list Device.t) (p : Process H)
    (device : Device.t) :
  In device (executions (effects (executeCommandOnDevices H devices cmd p))) ->
  In device devices.
Proof.
  destruct (executeCommandOnDevices_cases H cmd devices p)
    as [(results & w & Hall & ->)
       |(pre & dk & post & results & w1 & e & w2 & -> & Hall & _ & ->)];
    cbn [effects].
  - now rewrite (executions_blocks H cmd devices results (adb_all_length H _ _ _ _ _ Hall)).
  - rewrite executions_app, executions_attempt,
      (executions_blocks H cmd pre results (adb_all_length H _ _ _ _ _ Hall)).
    rewrite !in_app_iff. cbn. tauto.
Qed.

Lemma blocks_belong (cmd : string) (devices : list Device.t) (results : list string)
    (eff : Effect) :
  In eff (blocks H cmd devices results) -> belongs_to H cmd devices eff.
Proof.
  unfold blocks. rewrite in_flat_map. intros ([device result] & Hentry & Heff).
  exists device, result. split; [|exact Heff].
  now apply in_combine_l in Hentry.
Qed.

Lemma run_belongs (cmd : string) (devices : list Device.t) (p : Process H)
    (eff : Effect) :
  In eff (effects (executeCommandOnDevices H devices cmd p)) ->
  belongs_to H cmd devices eff.
Proof.
  destruct (executeCommandOnDevices_cases H cmd devices p)
    as [(results & w & Hall & ->)
       |(pre & dk & post & results & w1 & e & w2 & -> & Hall & _ & ->)];
    cbn [effects].
  - apply blocks_belong.
  - rewrite in_app_iff. intros [Hpre|Hdk].
    + destruct (blocks_belong _ _ _ _ Hpre) as (device & result & Hin & Heff).
      exists device, result. split; [|exact Heff].
      rewrite in_app_iff. now left.
    + exists dk, "". split; [rewrite in_app_iff; right; now left|].
      unfold block. rewrite in_app_iff. now left.
Qed.

Lemma onlineDevices_idempotent (devices : list Device.t) :
  onlineDevices (onlineDevices devices) = onlineDevices devices.
Proof.
  unfold onlineDevices. induction devices as [|device devices IH]; [reflexivity|].
  cbn [filter]. destruct (Device.isOnline device) eqn:Hon; [|exact IH].
  cbn [filter]. now rewrite Hon, IH.
Qed.

Lemma some_online (devices : list Device.t) :
  existsb Device.isOnline devices = true -> onlineDevices devices <> [].
Proof.
  unfold onlineDevices. induction devices as [|device devices IH]; cbn; [discriminate|].
  destruct (Device.isOnline device); [discriminate|exact IH].
Qed.

(** C10: [formatDeviceList] returns, for every list of devices, the
    concatenation in input order of one entry per device, the entry of a
    device being "- ", its [toStatusString()] and a newline; the empty
    list gives the empty string; the array is the same after the call. *)
Theorem formatDeviceList_concatenates_entries (deviceList : list Device.t) :
  formatDeviceList_reduce H deviceList
  = (fold_right String.append ""
       (map (fun device => "- " ++ toStatusString H device ++ "
") deviceList),
     deviceList)
  /\ formatDeviceList H deviceList
     = fold_right String.append ""
         (map (fun device => "- " ++ toStatusString H device ++ "
") deviceList)
  /\ length (map (fun device => "- " ++ toStatusString H device ++ "
") deviceList) = length deviceList
  /\ formatDeviceList H [] = "".
Proof.
  split; [|split; [|split]].
  - unfold formatDeviceList_reduce, reduce.
    pose proof (reduce_loop_entries H deviceList [] "") as E.
    cbn [length app] in E. exact E.
  - exact (formatDeviceList_entries H deviceList).
  - apply length_map.
  - reflexivity.
Qed.

(** C8: the online and the offline sublist computed by
    [executeForOnlineDevices] partition the device list: the list is the
    two shuffled together with their orders kept, a device of the list is
    in one of them, and no device is in both. *)
Theorem online_offline_partition (devices : list Device.t) :
  Interleaving (onlineDevices devices) (offlineDevices devices) devices
  /\ (forall device, In device devices <->
        In device (onlineDevices devices) \/ In device (offlineDevices devices))
  /\ (forall device, ~ (In device (onlineDevices devices)
                        /\ In device (offlineDevices devices)))
  /\ length (onlineDevices devices) + length (offlineDevices devices) = length devices.
Proof.
  unfold onlineDevices, offlineDevices.
  split; [|split; [|split]].
  - induction devices as [|device devices IH]; cbn [filter]; [constructor|].
    destruct (Device.isOnline device); cbn [negb]; now constructor.
  - intros device. rewrite !filter_In.
    destruct (Device.isOnline device); cbn [negb]; intuition congruence.
  - intros device. rewrite !filter_In.
    destruct (Device.isOnline device); cbn [negb]; intuition congruence.
  - induction devices as [|device devices IH]; cbn [filter]; [reflexivity|].
    destruct (Device.isOnline device); cbn [negb length]; lia.
Qed.

(** C5: on the empty device list the one-shot run writes the no-devices
    message to the error stream, runs no command and returns normally. *)
Theorem no_devices_is_reported_not_thrown (cmd : string) (p : Process H) :
  executeForOnlineDevices H [] cmd p
  = {| effects := [Stderr (red H "no devices detected
")];
       completion := Normal tt;
       final := p |}
  /\ executions (effects (executeForOnlineDevices H [] cmd p)) = [].
Proof. split; reflexivity. Qed.

(** C6: on a device list that is not empty and has no online device, the
    one-shot run prints the list of these devices under the heading
    "offline devices detected:" and runs no command. *)
Theorem only_offline_devices_are_reported (devices : list Device.t) (cmd : string)
    (p : Process H) :
  devices <> [] ->
  existsb Device.isOnline devices = false ->
  executeForOnlineDevices H devices cmd p
  = {| effects := [Stdout ("offline devices detected:
" ++ red H (formatDeviceList H devices))];
       completion := Normal tt;
       final := p |}
  /\ executions (effects (executeForOnlineDevices H devices cmd p)) = []
  /\ formatDeviceList H devices
     = fold_right String.append ""
         (map (fun device => "- " ++ toStatusString H device ++ "
") devices).
Proof.
  intros Hsome Hnone.
  destruct (filter_none_online devices Hnone) as [Hon Hoff].
  assert (Hrun : executeForOnlineDevices H devices cmd p
    = {| effects := [Stdout ("offline devices detected:
" ++ red H (formatDeviceList H devices))];
         completion := Normal tt;
         final := p |}).
  { unfold executeForOnlineDevices. rewrite Hon, Hoff.
    rewrite (nonempty_length _ Hsome). reflexivity. }
  split; [exact Hrun|]. split; [now rewrite Hrun|].
  exact (formatDeviceList_entries H devices).
Qed.

(** C4: on a device list with an online device, when the command succeeds
    on every online device, the one-shot run prints the list of online
    devices and then, for each online device in list order, its header
    with the line "Result for <id> (<model>)", one call of the command and
    the result; the command is run once per online device and on nothing
    else.  For the single online device A (Pixel) there is one block,
    headed "Result for A (Pixel)". *)
Theorem one_shot_runs_each_online_device_once (devices : list Device.t)
    (cmd : string) (p : Process H) (results : list string) (w : World H) :
  onlineDevices devices <> [] ->
  adb_all H cmd (onlineDevices devices) (world p) = Some (results, w) ->
  executeForOnlineDevices H devices cmd p
  = {| effects :=
         Stdout ("devices detected:
" ++ green H (formatDeviceList H (onlineDevices devices)))
         :: flat_map (fun entry =>
              [Stdout ""; Stdout banner;
               Stdout ("Result for " ++ Device.id (fst entry)
                       ++ " (" ++ Device.model (fst entry) ++ ")");
               Stdout banner;
               Executed (fst entry) cmd;
               Stdout (cyan H (snd entry))])
              (combine (onlineDevices devices) results);
       completion := Normal tt;
       final := {| world := w; detector := detector p |} |}
  /\ length results = length (onlineDevices devices)
  /\ executions (effects (executeForOnlineDevices H devices cmd p))
     = onlineDevices devices
  /\ (devices = [Device.mk "A" "Pixel" Device.Online] ->
      exists result,
        results = [result]
        /\ effects (executeForOnlineDevices H devices cmd p)
        = [Stdout ("devices detected:
" ++ green H (formatDeviceList H devices));
           Stdout ""; Stdout banner; Stdout "Result for A (Pixel)"; Stdout banner;
           Executed (Device.mk "A" "Pixel" Device.Online) cmd;
           Stdout (cyan H result)]).
Proof.
  intros Hsome Hall.
  assert (Hlen := adb_all_length H _ _ _ _ _ Hall).
  assert (Hrun : executeForOnlineDevices H devices cmd p
    = {| effects := detected H devices :: blocks H cmd (onlineDevices devices) results;
         completion := Normal tt;
         final := {| world := w; detector := detector p |} |}).
  { rewrite (executeForOnlineDevices_online devices cmd p Hsome). cbn zeta.
    pose proof (executeCommandOnDevices_prefix H cmd (onlineDevices devices) [] p
                  results w Hall) as E.
    rewrite app_nil_r in E. rewrite E. cbn zeta.
    rewrite executeCommandOnDevices_nil. cbn [effects completion final].
    now rewrite app_nil_r. }
  split; [exact Hrun|]. split; [exact Hlen|]. split.
  - rewrite Hrun. cbn [effects executions].
    now apply executions_blocks.
  - intros ->. rewrite Hrun. cbn [effects] in *. cbn in Hlen.
    destruct results as [|result [|]]; try discriminate.
    exists result. split; reflexivity.
Qed.

(** C9: on a device list with an online and an offline device, the run
    is the run on the online devices alone.  The first line lists the
    online devices and only them, one entry each; then come the blocks of
    the online devices in list order, all of them when the command
    succeeds on each, and up to the call on the first device on which it
    fails otherwise.  The command is run on the first online device at
    least, on online devices of the list only and on no offline device,
    and nothing else is printed: the offline devices contribute nothing. *)
Theorem offline_devices_are_ignored_next_to_online_ones (devices : list Device.t)
    (cmd : string) (p : Process H) :
  existsb Device.isOnline devices = true ->
  existsb (fun device => negb (Device.isOnline device)) devices = true ->
  executeForOnlineDevices H devices cmd p
  = executeForOnlineDevices H (onlineDevices devices) cmd p
  /\ effects (executeForOnlineDevices H devices cmd p)
     = Stdout ("devices detected:
" ++ green H (formatDeviceList H (onlineDevices devices)))
       :: effects (executeCommandOnDevices H (onlineDevices devices) cmd p)
  /\ (forall device,
        In device (executions (effects (executeForOnlineDevices H devices cmd p))) ->
        In device devices /\ Device.isOnline device = true)
  /\ (forall eff,
        In eff (effects (executeForOnlineDevices H devices cmd p)) ->
        eff = Stdout ("devices detected:
" ++ green H (formatDeviceList H (onlineDevices devices)))
        \/ belongs_to H cmd (onlineDevices devices) eff)
  /\ (exists rest,
        effects (executeForOnlineDevices H devices cmd p)
        = Stdout ("devices detected:
" ++ green H (fold_right String.append ""
                (map (fun device => "- " ++ toStatusString H device ++ "
") (filter Device.isOnline devices))))
          :: rest
        /\ ((exists results w,
               adb_all H cmd (filter Device.isOnline devices) (world p)
               = Some (results, w)
               /\ rest
                  = flat_map (fun entry =>
                      [Stdout ""; Stdout banner;
                       Stdout ("Result for " ++ Device.id (fst entry)
                               ++ " (" ++ Device.model (fst entry) ++ ")");
                       Stdout banner;
                       Executed (fst entry) cmd;
                       Stdout (cyan H (snd entry))])
                      (combine (filter Device.isOnline devices) results)
               /\ executions (effects (executeForOnlineDevices H devices cmd p))
                  = filter Device.isOnline devices
               /\ completion (executeForOnlineDevices H devices cmd p) = Normal tt)
            \/ (exists pre dk post results w1 error w2,
                  filter Device.isOnline devices = (pre ++ dk :: post)%list
                  /\ adb_all H cmd pre (world p) = Some (results, w1)
                  /\ adb_exec H dk cmd w1 = (inr error, w2)
                  /\ rest
                     = (flat_map (fun entry =>
                          [Stdout ""; Stdout banner;
                           Stdout ("Result for " ++ Device.id (fst entry)
                                   ++ " (" ++ Device.model (fst entry) ++ ")");
                           Stdout banner;
                           Executed (fst entry) cmd;
                           Stdout (cyan H (snd entry))])
                          (combine pre results)
                        ++ [Stdout ""; Stdout banner;
                            Stdout ("Result for " ++ Device.id dk
                                    ++ " (" ++ Device.model dk ++ ")");
                            Stdout banner;
                            Executed dk cmd])%list
                  /\ executions (effects (executeForOnlineDevices H devices cmd p))
                     = (pre ++ [dk])%list
                  /\ completion (executeForOnlineDevices H devices cmd p)
                     = Thrown error)))
  /\ (exists first later others,
        filter Device.isOnline devices = first :: later
        /\ executions (effects (executeForOnlineDevices H devices cmd p))
           = first :: others)
  /\ (forall device,
        In device devices -> Device.isOnline device = false ->
        ~ In device (executions (effects (executeForOnlineDevices H devices cmd p)))).
Proof.
  intros Hon _. apply some_online in Hon.
  assert (Hon' : onlineDevices (onlineDevices devices) <> [])
    by now rewrite onlineDevices_idempotent.
  change (filter Device.isOnline devices) with (onlineDevices devices).
  assert (Hincl : forall device,
    In device (executions (effects (executeForOnlineDevices H devices cmd p))) ->
    In device devices /\ Device.isOnline device = true).
  { rewrite (executeForOnlineDevices_online devices cmd p Hon). cbn zeta.
    cbn [effects]. unfold detected. cbn [executions]. intros device Hin.
    apply executions_run in Hin. unfold onlineDevices in Hin.
    now apply filter_In in Hin. }
  assert (Hshape :
    (exists results w,
        adb_all H cmd (onlineDevices devices) (world p) = Some (results, w)
        /\ effects (executeCommandOnDevices H (onlineDevices devices) cmd p)
           = blocks H cmd (onlineDevices devices) results
        /\ executions (effects (executeForOnlineDevices H devices cmd p))
           = onlineDevices devices
        /\ completion (executeForOnlineDevices H devices cmd p) = Normal tt)
    \/ (exists pre dk post results w1 error w2,
          onlineDevices devices = (pre ++ dk :: post)%list
          /\ adb_all H cmd pre (world p) = Some (results, w1)
          /\ adb_exec H dk cmd w1 = (inr error, w2)
          /\ effects (executeCommandOnDevices H (onlineDevices devices) cmd p)
             = (blocks H cmd pre results ++ attempt cmd dk)%list
          /\ executions (effects (executeForOnlineDevices H devices cmd p))
             = (pre ++ [dk])%list
          /\ completion (executeForOnlineDevices H devices cmd p) = Thrown error)).
  { rewrite (executeForOnlineDevices_online devices cmd p Hon). cbn zeta.
    cbn [effects completion]. unfold detected. cbn [executions].
    destruct (executeCommandOnDevices_cases H cmd (onlineDevices devices) p)
      as [(results & w & Hall & Hrun)
         |(pre & dk & post & results & w1 & e & w2 & Hsplit & Hall & Hfail & Hrun)];
      rewrite Hrun; cbn [effects completion].
    - left. exists results, w. split; [exact Hall|]. split; [reflexivity|].
      split; [|reflexivity].
      exact (executions_blocks H cmd _ results (adb_all_length H _ _ _ _ _ Hall)).
    - right. exists pre, dk, post, results, w1, e, w2.
      split; [exact Hsplit|]. split; [exact Hall|]. split; [exact Hfail|].
      split; [reflexivity|]. split; [|reflexivity].
      now rewrite executions_app, executions_attempt,
        (executions_blocks H cmd pre results (adb_all_length H _ _ _ _ _ Hall)). }
  split; [|split; [|split; [exact Hincl|split; [|split; [|split]]]]].
  - rewrite (executeForOnlineDevices_online devices cmd p Hon),
      (executeForOnlineDevices_online (onlineDevices devices) cmd p Hon').
    unfold detected. now rewrite !onlineDevices_idempotent.
  - now rewrite (executeForOnlineDevices_online devices cmd p Hon).
  - rewrite (executeForOnlineDevices_online devices cmd p Hon). cbn zeta.
    cbn [effects]. unfold detected.
    intros eff [<-|Hin]; [now left|right]. now apply run_belongs in Hin.
  - exists (effects (executeCommandOnDevices H (onlineDevices devices) cmd p)).
    split.
    + rewrite (executeForOnlineDevices_online devices cmd p Hon). cbn zeta.
      cbn [effects]. unfold detected.
      now rewrite (formatDeviceList_entries H (onlineDevices devices)).
    + destruct Hshape
        as [(results & w & Hall & Hrest & Hexecs & Hcompl)
           |(pre & dk & post & results & w1 & e & w2
             & Hsplit & Hall & Hfail & Hrest & Hexecs & Hcompl)].
      * left. exists results, w. now rewrite Hrest.
      * right. exists pre, dk, post, results, w1, e, w2. now rewrite Hrest.
  - destruct Hshape
      as [(results & w & _ & _ & Hexecs & _)
         |(pre & dk & post & results & w1 & e & w2 & Hsplit & _ & _ & _ & Hexecs & _)];
      rewrite Hexecs.
    + destruct (onlineDevices devices) as [|first later]; [congruence|].
      now exists first, later, later.
    + rewrite Hsplit. destruct pre as [|first pre].
      * now exists dk, post, [].
      * now exists first, (pre ++ dk :: post)%list, (pre ++ [dk])%list.
  - intros device Hin Hoff Hexec. apply Hincl in Hexec.
    destruct Hexec as [_ Hon'']. congruence.
Qed.

(** C2: when the command succeeds on the first online devices of a batch
    and fails on the next one, the blocks of the first ones are complete,
    results included, the header of the failing device and the call on it
    follow, the error is thrown out of the run, the listener writes it to
    the error stream, and the command is run on none of the devices after
    the failing one. *)
Theorem execution_failure_aborts_the_rest_of_the_batch (params : Params)
    (devices pre post : list Device.t) (dk : Device.t) (p : Process H)
    (results : list string) (w1 w2 : World H) (error : string) :
  onlineDevices devices = (pre ++ dk :: post)%list ->
  adb_all H (command params) pre (world p) = Some (results, w1) ->
  adb_exec H dk (command params) w1 = (inr error, w2) ->
  executeCommandOnDevices H (onlineDevices devices) (command params) p
  = {| effects := (blocks H (command params) pre results
                   ++ header dk ++ [Executed dk (command params)])%list;
       completion := Thrown error;
       final := {| world := w2; detector := detector p |} |}
  /\ executions (effects (executeCommandOnDevices H (onlineDevices devices)
                            (command params) p))
     = (pre ++ [dk])%list
  /\ effects (newOrChangedDevicesListener H params devices p)
     = (detected H devices
        :: blocks H (command params) pre results
        ++ header dk ++ [Executed dk (command params)]
        ++ [Stderr (red H error); WatchStopped])%list
  /\ executions (effects (newOrChangedDevicesListener H params devices p))
     = (pre ++ [dk])%list.
Proof.
  intros Hsplit Hall Hfail.
  assert (Hlen := adb_all_length H _ _ _ _ _ Hall).
  assert (Hrun : executeCommandOnDevices H (onlineDevices devices) (command params) p
    = {| effects := (blocks H (command params) pre results
                     ++ attempt (command params) dk)%list;
         completion := Thrown error;
         final := {| world := w2; detector := detector p |} |}).
  { rewrite Hsplit,
      (executeCommandOnDevices_prefix H _ pre (dk :: post) p results w1 Hall).
    cbn zeta.
    now rewrite (executeCommandOnDevices_fail H dk post (command params)
                   {| world := w1; detector := detector p |} error w2 Hfail). }
  assert (Hsome : onlineDevices devices <> [])
    by (rewrite Hsplit; now destruct pre).
  assert (Hexecs : executions (blocks H (command params) pre results
                               ++ attempt (command params) dk) = (pre ++ [dk])%list)
    by now rewrite executions_app, executions_attempt, executions_blocks.
  split; [exact Hrun|]. split; [rewrite Hrun; exact Hexecs|].
  unfold newOrChangedDevicesListener, try_catch.
  rewrite (executeForOnlineDevices_online devices _ p Hsome). cbn zeta.
  rewrite Hrun. cbn [effects completion final].
  unfold bind, console_error, unwatch. cbn [effects completion final String.concat].
  split.
  - cbn [app]. f_equal. unfold attempt. now rewrite <- !app_assoc.
  - cbn [app executions]. rewrite executions_app. cbn [executions].
    now rewrite app_nil_r.
Qed.

End OneShot.

(** ** Continuous mode *)

Section Continuous.

Context (H : Host).

Lemma bind_ret_tt (m : M H unit) (p : Process H) :
  bind H m (fun _ => ret H tt) p = m p.
Proof.
  unfold bind, ret. destruct (m p) as [eff [[]|e|c] fin]; cbn;
    now rewrite ?app_nil_r.
Qed.

Lemma block_console_or_command (cmd : string) (entry : Device.t * string) :
  forallb console_or_command (block H cmd entry) = true.
Proof. reflexivity. Qed.

(** The run over a device list leaves the detector alone, returns or
    throws, and only writes to the console and runs the command. *)
Lemma executeForOnlineDevices_frame (devices : list Device.t) (cmd : string)
    (p : Process H) :
  detector (final (executeForOnlineDevices H devices cmd p)) = detector p
  /\ (completion (executeForOnlineDevices H devices cmd p) = Normal tt
      \/ exists error,
           completion (executeForOnlineDevices H devices cmd p) = Thrown error)
  /\ forallb console_or_command (effects (executeForOnlineDevices H devices cmd p))
     = true.
Proof.
  destruct (onlineDevices devices) as [|device online] eqn:Hon.
  - unfold executeForOnlineDevices. rewrite Hon.
    destruct (offlineDevices devices); cbn; auto.
  - assert (Hsome : onlineDevices devices <> []) by (rewrite Hon; discriminate).
    rewrite (executeForOnlineDevices_online H devices cmd p Hsome). cbn zeta.
    assert (Hall : forall eff,
      In eff (effects (executeCommandOnDevices H (onlineDevices devices) cmd p)) ->
      console_or_command eff = true).
    { intros eff Hin. apply run_belongs in Hin.
      destruct Hin as (d & r & _ & Hin).
      pose proof (block_console_or_command cmd (d, r)) as Hb.
      rewrite forallb_forall in Hb. now apply Hb. }
    rewrite <- forallb_forall in Hall.
    destruct (executeCommandOnDevices_cases H cmd (onlineDevices devices) p)
      as [(results & w & _ & Hrun)
         |(pre & dk & post & results & w1 & e & w2 & _ & _ & _ & Hrun)];
      rewrite Hrun in *; cbn [effects completion final detector forallb] in *;
      unfold detected; cbn [console_or_command andb]; eauto.
Qed.

Lemma notify_calls_the_listener (params : Params) (event : EventName)
    (devices : list Device.t) (p : Process H) :
  listeners (detector p) = subscriptions ->
  watching (detector p) = true ->
  notify H params event devices p = newOrChangedDevicesListener H params devices p.
Proof.
  intros Hsubs Hwatch. unfold notify, subscribers. rewrite Hwatch, Hsubs.
  destruct event; cbn [subscriptions filter map fst snd EventName_eqb forEach call];
    apply bind_ret_tt.
Qed.

Lemma listener_when_it_throws (params : Params) (devices : list Device.t)
    (p : Process H) (error : string) :
  completion (executeForOnlineDevices H devices (command params) p) = Thrown error ->
  newOrChangedDevicesListener H params devices p
  = {| effects := (effects (executeForOnlineDevices H devices (command params) p)
                   ++ [Stderr (red H error); WatchStopped])%list;
       completion := Normal tt;
       final := {| world := world (final (executeForOnlineDevices H devices
                                            (command params) p));
                   detector := {| listeners := listeners (detector p);
                                  watching := false |} |} |}.
Proof.
  intros Hthrown. unfold newOrChangedDevicesListener, try_catch.
  rewrite Hthrown. unfold bind, console_error, unwatch.
  cbn [effects completion final world detector listeners String.concat app].
  destruct (executeForOnlineDevices_frame devices (command params) p) as (-> & _).
  reflexivity.
Qed.

Lemma listener_when_it_returns (params : Params) (devices : list Device.t)
    (p : Process H) :
  completion (executeForOnlineDevices H devices (command params) p) = Normal tt ->
  newOrChangedDevicesListener H params devices p
  = executeForOnlineDevices H devices (command params) p.
Proof.
  intros Hok. unfold newOrChangedDevicesListener, try_catch. now rewrite Hok.
Qed.

Lemma initialRun_listing_fails (params : Params) (p : Process H) (error : string)
    (w : World H) :
  adb_devices H (world p) = (inr error, w) ->
  initialRun H params p
  = {| effects := [Queried];
       completion := Thrown error;
       final := {| world := w; detector := detector p |} |}.
Proof.
  intros Hlist. unfold initialRun, bind, getDevices. now rewrite Hlist.
Qed.

Lemma initialRun_listing_ok (params : Params) (p : Process H)
    (devices : list Device.t) (w : World H) :
  adb_devices H (world p) = (inl devices, w) ->
  initialRun H params p
  = let run := executeForOnlineDevices H devices (command params)
                 {| world := w; detector := detector p |} in
    {| effects := Queried :: effects run;
       completion := completion run;
       final := final run |}.
Proof.
  intros Hlist. unfold initialRun, bind, getDevices. rewrite Hlist.
  cbn [effects completion final app]. reflexivity.
Qed.

Lemma initialRun_frame (params : Params) (p : Process H) :
  detector (final (initialRun H params p)) = detector p
  /\ forall code, ~ In (Exited code) (effects (initialRun H params p)).
Proof.
  destruct (adb_devices H (world p)) as [[devices|error] w] eqn:Hlist.
  - rewrite (initialRun_listing_ok params p devices w Hlist). cbn zeta.
    cbn [effects final].
    destruct (executeForOnlineDevices_frame devices (command params)
                {| world := w; detector := detector p |}) as (Hdet & _ & Hcons).
    split; [exact Hdet|]. intros code [Habs|Hin]; [discriminate|].
    rewrite forallb_forall in Hcons. now apply Hcons in Hin.
  - rewrite (initialRun_listing_fails params p error w Hlist). cbn.
    split; [reflexivity|]. intros code [Habs|[]]. discriminate.
Qed.

Lemma main_after_the_initial_run (params : Params) (p : Process H) :
  completion (initialRun H params p) = Normal tt ->
  main H params p
  = let run := initialRun H params p in
    let more := (if continue params
                 then executeForFutureDevices H (command params)
                 else ret H tt) (final run) in
    {| effects := (effects run ++ effects more)%list;
       completion := completion more;
       final := final more |}.
Proof.
  intros Hok. unfold main, bind, try_catch. cbn zeta.
  rewrite Hok. cbn iota. rewrite Hok. reflexivity.
Qed.

(** C3: when the device listing of the initial run fails, the script
    writes the error to the error stream and exits with code 1, with
    nothing subscribed and no watch started; when the initial run does not
    fail, the script does not exit, and in continuous mode it goes on to
    subscribe and to start the watch. *)
Theorem initial_detection_failure_exits_with_1 (params : Params) (w : World H) :
  (forall error w',
      adb_devices H w = (inr error, w') ->
      main H params (boot H w)
      = {| effects := [Queried; Stderr (red H error); Exited 1];
           completion := Terminated 1;
           final := boot H w' |})
  /\ (completion (initialRun H params (boot H w)) = Normal tt ->
      completion (main H params (boot H w)) = Normal tt
      /\ (forall code, ~ In (Exited code) (effects (main H params (boot H w))))
      /\ (continue params = true ->
          effects (main H params (boot H w))
          = (effects (initialRun H params (boot H w))
             ++ [Subscribed devicesAdded newOrChangedDevicesListener_fn;
                 Subscribed devicesChanged newOrChangedDevicesListener_fn;
                 WatchStarted])%list
          /\ watching (detector (final (main H params (boot H w)))) = true)
      /\ (continue params = false ->
          main H params (boot H w) = initialRun H params (boot H w))).
Proof.
  split.
  - intros error w' Hlist. unfold main, bind, try_catch.
    rewrite (initialRun_listing_fails params (boot H w) error w' Hlist).
    reflexivity.
  - intros Hok. rewrite (main_after_the_initial_run params (boot H w) Hok).
    cbn zeta. destruct (initialRun_frame params (boot H w)) as [Hdet Hnoexit].
    destruct (continue params).
    + cbn [effects completion final executeForFutureDevices].
      split; [reflexivity|]. split; [|split; [|discriminate]].
      * intros code. rewrite in_app_iff. intros [Hin|Hin].
        -- exact (Hnoexit code Hin).
        -- cbn in Hin. intuition discriminate.
      * intros _. split; reflexivity.
    + cbn [effects completion final ret]. rewrite app_nil_r.
      split; [reflexivity|]. split; [exact Hnoexit|]. split; [discriminate|].
      intros _. destruct (initialRun H params (boot H w)) as [eff c fin].
      cbn in *. now rewrite Hok.
Qed.

(** C1, as the script has it: when the command fails on a device of a
    notification batch in continuous mode, the listener writes the error
    to the error stream and calls [unwatch()]; the process is not
    terminated and the listeners stay registered, but the detector is no
    longer watching. *)
Theorem execution_failure_in_a_notification_stops_the_watch (params : Params)
    (event : EventName) (devices pre post : list Device.t) (dk : Device.t)
    (p : Process H) (results : list string) (w1 w2 : World H) (error : string) :
  listeners (detector p) = subscriptions ->
  watching (detector p) = true ->
  onlineDevices devices = (pre ++ dk :: post)%list ->
  adb_all H (command params) pre (world p) = Some (results, w1) ->
  adb_exec H dk (command params) w1 = (inr error, w2) ->
  notify H params event devices p
  = {| effects := (detected H devices
                   :: blocks H (command params) pre results
                   ++ header dk ++ [Executed dk (command params)]
                   ++ [Stderr (red H error); WatchStopped])%list;
       completion := Normal tt;
       final := {| world := w2;
                   detector := {| listeners := subscriptions;
                                  watching := false |} |} |}
  /\ completion (notify H params event devices p) = Normal tt
  /\ In (Stderr (red H error)) (effects (notify H params event devices p))
  /\ listeners (detector (final (notify H params event devices p))) = subscriptions
  /\ watching (detector (final (notify H params event devices p))) = false.
Proof.
  intros Hsubs Hwatch Hsplit Hall Hfail.
  assert (Hsome : onlineDevices devices <> [])
    by (rewrite Hsplit; now destruct pre).
  assert (Hrun : executeForOnlineDevices H devices (command params) p
    = {| effects := (detected H devices
                     :: blocks H (command params) pre results
                     ++ attempt (command params) dk)%list;
         completion := Thrown error;
         final := {| world := w2; detector := detector p |} |}).
  { rewrite (executeForOnlineDevices_online H devices _ p Hsome). cbn zeta.
    rewrite Hsplit,
      (executeCommandOnDevices_prefix H _ pre (dk :: post) p results w1 Hall).
    cbn zeta.
    now rewrite (executeCommandOnDevices_fail H dk post (command params)
                   {| world := w1; detector := detector p |} error w2 Hfail). }
  assert (Hnotify : notify H params event devices p
    = {| effects := (detected H devices
                     :: blocks H (command params) pre results
                     ++ header dk ++ [Executed dk (command params)]
                     ++ [Stderr (red H error); WatchStopped])%list;
         completion := Normal tt;
         final := {| world := w2;
                     detector := {| listeners := subscriptions;
                                    watching := false |} |} |}).
  { rewrite (notify_calls_the_listener params event devices p Hsubs Hwatch).
    rewrite (listener_when_it_throws params devices p error)
      by now rewrite Hrun.
    rewrite Hrun, Hsubs. cbn [effects final world]. f_equal.
    rewrite <- app_comm_cons. f_equal. unfold attempt.
    rewrite <- !app_assoc. reflexivity. }
  rewrite Hnotify. cbn [effects completion final detector listeners watching].
  split; [reflexivity|]. split; [reflexivity|]. split; [|split; reflexivity].
  right. rewrite !in_app_iff. right. right. right. now left.
Qed.

(** C7, as the script has it: in continuous mode, once the initial run
    has completed without an error, the script registers the one listener
    for [devicesAdded] and for [devicesChanged] and then starts the watch;
    every notification runs the listener, that is the run of the one-shot
    logic on the device list of the notification, without a new device
    query. *)
Theorem continuous_mode_subscribes_after_the_initial_run (params : Params)
    (w : World H) :
  continue params = true ->
  completion (initialRun H params (boot H w)) = Normal tt ->
  effects (main H params (boot H w))
  = (effects (initialRun H params (boot H w))
     ++ [Subscribed devicesAdded newOrChangedDevicesListener_fn;
         Subscribed devicesChanged newOrChangedDevicesListener_fn;
         WatchStarted])%list
  /\ completion (main H params (boot H w)) = Normal tt
  /\ detector (final (main H params (boot H w)))
     = {| listeners := [(devicesAdded, newOrChangedDevicesListener_fn);
                        (devicesChanged, newOrChangedDevicesListener_fn)];
          watching := true |}
  /\ (forall event devices q,
        detector q = detector (final (main H params (boot H w))) ->
        notify H params event devices q
        = newOrChangedDevicesListener H params devices q
        /\ (completion (executeForOnlineDevices H devices (command params) q)
            = Normal tt ->
            notify H params event devices q
            = executeForOnlineDevices H devices (command params) q)
        /\ ~ In Queried (effects (notify H params event devices q))).
Proof.
  intros Hcont Hok.
  rewrite (main_after_the_initial_run params (boot H w) Hok). cbn zeta.
  destruct (initialRun_frame params (boot H w)) as [Hdet _].
  rewrite Hcont. cbn [effects completion final executeForFutureDevices].
  assert (Hfinal : detector (final (executeForFutureDevices H (command params)
                                      (final (initialRun H params (boot H w)))))
    = {| listeners := subscriptions; watching := true |}).
  { cbn. now rewrite Hdet. }
  split; [reflexivity|]. split; [reflexivity|]. split; [exact Hfinal|].
  intros event devices q Hq. rewrite Hfinal in Hq.
  assert (Hcall : notify H params event devices q
                  = newOrChangedDevicesListener H params devices q)
    by (apply notify_calls_the_listener; now rewrite Hq).
  rewrite Hcall. split; [reflexivity|]. split.
  - apply listener_when_it_returns.
  - destruct (executeForOnlineDevices_frame devices (command params) q)
      as (_ & [Hret|[error Hthrown]] & Hcons);
      rewrite forallb_forall in Hcons.
    + rewrite (listener_when_it_returns params devices q Hret).
      intros Hin. now apply Hcons in Hin.
    + rewrite (listener_when_it_throws params devices q error Hthrown).
      cbn [effects]. rewrite in_app_iff. intros [Hin|Hin].
      * now apply Hcons in Hin.
      * cbn in Hin. intuition discriminate.
Qed.

End Continuous.

(** * Concrete runs on the scripted host *)

(** The claim C1 as the spec words it (the watch survives a failed
    command) fails: the detector is watching with both listeners
    registered, the command fails on B, and after the notification the
    detector is idle. *)
Lemma watch_survives_execution_failure_counterexample :
  watching (detector started) = true
  /\ listeners (detector started) = subscriptions
  /\ adb_exec scripted nexus (command forever) (world started)
     = (inr "error: adb install app.apk failed on B", world started)
  /\ watching (detector (final (notify scripted forever devicesAdded [nexus] started)))
     = false
  /\ watching (detector (final (notify scripted forever devicesAdded [nexus] started)))
     <> true.
Proof.
  split; [reflexivity|]. split; [reflexivity|]. split; [reflexivity|].
  split; [reflexivity|]. vm_compute. discriminate.
Qed.

Lemma execution_failure_in_a_notification_stops_the_watch_witness :
  watching (detector started) = true
  /\ completion (notify scripted forever devicesChanged [pixel; galaxy; nexus] started)
     = Normal tt
  /\ watching (detector (final (notify scripted forever devicesChanged
                                  [pixel; galaxy; nexus] started)))
     = false.
Proof.
  destruct (execution_failure_in_a_notification_stops_the_watch scripted forever
              devicesChanged [pixel; galaxy; nexus] [pixel] [] nexus started
              ["adb install app.apk done on A"] fragile fragile
              "error: adb install app.apk failed on B"
              eq_refl eq_refl eq_refl eq_refl eq_refl)
    as (_ & Hcompletion & _ & _ & Hidle).
  split; [reflexivity|]. split; assumption.
Defined.

Lemma execution_failure_aborts_the_rest_of_the_batch_witness :
  onlineDevices [pixel; nexus; galaxy; tablet] = [pixel; nexus; tablet]
  /\ executions (effects (newOrChangedDevicesListener scripted once
                            [pixel; nexus; galaxy; tablet] (boot scripted fragile)))
     = [pixel; nexus].
Proof.
  split; [reflexivity|].
  exact (proj2 (proj2 (proj2
    (execution_failure_aborts_the_rest_of_the_batch scripted once
       [pixel; nexus; galaxy; tablet] [pixel] [tablet] nexus (boot scripted fragile)
       ["adb install app.apk done on A"] fragile fragile
       "error: adb install app.apk failed on B"
       eq_refl eq_refl eq_refl)))).
Defined.

Lemma initial_detection_failure_exits_with_1_witness :
  main scripted forever (boot scripted broken)
  = {| effects := [Queried;
                   Stderr (red scripted "error: cannot connect to daemon");
                   Exited 1];
       completion := Terminated 1;
       final := boot scripted broken |}
  /\ completion (main scripted forever (boot scripted fragile)) = Normal tt
  /\ watching (detector (final (main scripted forever (boot scripted fragile)))) = true.
Proof.
  split.
  - exact (proj1 (initial_detection_failure_exits_with_1 scripted forever broken)
             "error: cannot connect to daemon" broken eq_refl).
  - destruct (proj2 (initial_detection_failure_exits_with_1 scripted forever fragile)
                eq_refl) as (Hcompletion & _ & Hcontinue & _).
    split; [exact Hcompletion|]. exact (proj2 (Hcontinue eq_refl)).
Defined.

Lemma one_shot_runs_each_online_device_once_witness :
  executions (effects (executeForOnlineDevices scripted [pixel; galaxy; nexus]
                         "adb install app.apk" (boot scripted calm)))
  = [pixel; nexus]
  /\ exists result,
       ["adb install app.apk done on A"] = [result]
       /\ effects (executeForOnlineDevices scripted [pixel]
                     "adb install app.apk" (boot scripted calm))
          = [Stdout ("devices detected:
" ++ green scripted (formatDeviceList scripted [pixel]));
             Stdout ""; Stdout banner; Stdout "Result for A (Pixel)"; Stdout banner;
             Executed pixel "adb install app.apk";
             Stdout (cyan scripted result)].
Proof.
  split.
  - exact (proj1 (proj2 (proj2
      (one_shot_runs_each_online_device_once scripted [pixel; galaxy; nexus]
         "adb install app.apk" (boot scripted calm)
         ["adb install app.apk done on A"; "adb install app.apk done on B"] calm
         ltac:(discriminate) eq_refl)))).
  - exact (proj2 (proj2 (proj2
      (one_shot_runs_each_online_device_once scripted [pixel]
         "adb install app.apk" (boot scripted calm)
         ["adb install app.apk done on A"] calm
         ltac:(discriminate) eq_refl))) eq_refl).
Defined.

Lemma only_offline_devices_are_reported_witness :
  executeForOnlineDevices scripted [galaxy; moto] "adb install app.apk"
    (boot scripted calm)
  = {| effects := [Stdout ("offline devices detected:
" ++ red scripted (formatDeviceList scripted [galaxy; moto]))];
       completion := Normal tt;
       final := boot scripted calm |}.
Proof.
  exact (proj1 (only_offline_devices_are_reported scripted [galaxy; moto]
                  "adb install app.apk" (boot scripted calm)
                  ltac:(discriminate) eq_refl)).
Defined.

Lemma offline_devices_are_ignored_next_to_online_ones_witness :
  executeForOnlineDevices scripted [pixel; galaxy; nexus] "adb install app.apk"
    (boot scripted fragile)
  = executeForOnlineDevices scripted [pixel; nexus] "adb install app.apk"
      (boot scripted fragile)
  /\ exists first later others,
       [pixel; nexus] = first :: later
       /\ executions (effects (executeForOnlineDevices scripted [pixel; galaxy; nexus]
                                 "adb install app.apk" (boot scripted fragile)))
          = first :: others.
Proof.
  destruct (offline_devices_are_ignored_next_to_online_ones scripted
              [pixel; galaxy; nexus] "adb install app.apk"
              (boot scripted fragile) eq_refl eq_refl)
    as (Hsame & _ & _ & _ & _ & Hfirst & _).
  split; [exact Hsame|exact Hfirst].
Defined.

(** The claim C7 as the spec words it (continuous mode subscribes) fails
    when the initial run fails: the script exits before the [if], nothing
    is registered and no watch is started. *)
Lemma continuous_mode_always_subscribes_counterexample :
  continue forever = true
  /\ main scripted forever (boot scripted broken)
     = {| effects := [Queried;
                      Stderr (red scripted "error: cannot connect to daemon");
                      Exited 1];
          completion := Terminated 1;
          final := boot scripted broken |}
  /\ listeners (detector (final (main scripted forever (boot scripted broken)))) = []
  /\ watching (detector (final (main scripted forever (boot scripted broken)))) = false.
Proof. repeat split. Qed.

Lemma continuous_mode_subscribes_after_the_initial_run_witness :
  continue forever = true
  /\ completion (initialRun scripted forever (boot scripted fragile)) = Normal tt
  /\ detector (final (main scripted forever (boot scripted fragile)))
     = {| listeners := [(devicesAdded, newOrChangedDevicesListener_fn);
                        (devicesChanged, newOrChangedDevicesListener_fn)];
          watching := true |}.
Proof.
  split; [reflexivity|]. split; [reflexivity|].
  exact (proj1 (proj2 (proj2
    (continuous_mode_subscribes_after_the_initial_run scripted forever fragile
       eq_refl eq_refl)))).
Defined.

(** * Further properties of the script *)

Section Coverage.

Context (H : Host).

Lemma bind_assoc {A B C : Type} (m : M H A) (k : A -> M H B) (h : B -> M H C)
    (p : Process H) :
  bind H (bind H m k) h p = bind H m (fun a => bind H (k a) h) p.
Proof.
  unfold bind. destruct (m p) as [e1 [a|err|c] f1]; cbn; [|reflexivity|reflexivity].
  destruct (k a f1) as [e2 [b|err|c] f2]; cbn; [|reflexivity|reflexivity].
  destruct (h b f2) as [e3 c3 f3]; cbn. now rewrite app_assoc.
Qed.

Lemma bind_ext {A B : Type} (m : M H A) (k k' : A -> M H B) (p : Process H) :
  (forall a q, k a q = k' a q) -> bind H m k p = bind H m k' p.
Proof.
  intros Hk. unfold bind. destruct (m p) as [e1 [a|err|c] f1]; cbn;
    [now rewrite Hk|reflexivity|reflexivity].
Qed.

Lemma forEach_app {A : Type} (callback : A -> M H unit) (a b : list A) :
  forall p : Process H,
    forEach H callback (a ++ b) p
    = bind H (forEach H callback a) (fun _ => forEach H callback b) p.
Proof.
  induction a as [|x a IH]; intros p.
  - cbn [app forEach]. unfold bind, ret. cbn.
    now destruct (forEach H callback b p).
  - cbn [app forEach]. rewrite bind_assoc. apply bind_ext. intros _ q. apply IH.
Qed.

Lemma entries_app (a b : list Device.t) :
  entries H (a ++ b) = entries H a ++ entries H b.
Proof.
  unfold entries. induction a as [|device a IH]; [reflexivity|].
  cbn [app map fold_right]. now rewrite IH, append_assoc.
Qed.

Lemma executeForOnlineDevices_none_online (devices : list Device.t) (cmd : string)
    (p : Process H) :
  onlineDevices devices = [] ->
  offlineDevices devices = devices
  /\ executeForOnlineDevices H devices cmd p
     = (if (0 <? length devices)%nat
        then console_log H ["offline devices detected:
" ++ red H (formatDeviceList H devices)]
        else console_error H [red H "no devices detected
"]) p.
Proof.
  intros Hon.
  assert (Hoff : offlineDevices devices = devices).
  { revert Hon. unfold onlineDevices, offlineDevices.
    induction devices as [|device devices IH]; [reflexivity|]. cbn [filter].
    destruct (Device.isOnline device); [discriminate|]. cbn [negb].
    intros Hrest. now rewrite (IH Hrest). }
  split; [exact Hoff|]. unfold executeForOnlineDevices. now rewrite Hon, Hoff.
Qed.

Lemma executeForOnlineDevices_completion (devices : list Device.t) (cmd : string)
    (p : Process H) :
  completion (executeForOnlineDevices H devices cmd p)
  = completion (executeCommandOnDevices H (onlineDevices devices) cmd p)
  /\ executions (effects (executeForOnlineDevices H devices cmd p))
     = executions (effects (executeCommandOnDevices H (onlineDevices devices) cmd p))
  /\ world (final (executeForOnlineDevices H devices cmd p))
     = world (final (executeCommandOnDevices H (onlineDevices devices) cmd p)).
Proof.
  destruct (onlineDevices devices) as [|device online] eqn:Hon.
  - destruct (executeForOnlineDevices_none_online devices cmd p Hon) as [_ ->].
    destruct (0 <? length devices)%nat; cbn; auto.
  - assert (Hsome : onlineDevices devices <> []) by (rewrite Hon; discriminate).
    rewrite (executeForOnlineDevices_online H devices cmd p Hsome), Hon.
    cbn zeta. cbn [effects completion final]. unfold detected.
    cbn [executions]. auto.
Qed.

Lemma initialRun_cases (params : Params) (p : Process H) :
  (completion (initialRun H params p) = Normal tt
   \/ exists error, completion (initialRun H params p) = Thrown error)
  /\ forall eff,
       In eff (effects (initialRun H params p)) ->
       eff = Queried \/ console_or_command eff = true.
Proof.
  destruct (adb_devices H (world p)) as [[devices|error] w] eqn:Hlist.
  - rewrite (initialRun_listing_ok H params p devices w Hlist). cbn zeta.
    cbn [effects completion].
    destruct (executeForOnlineDevices_frame H devices (command params)
                {| world := w; detector := detector p |}) as (_ & Hcompl & Hcons).
    split; [exact Hcompl|]. intros eff [<-|Hin]; [now left|right].
    rewrite forallb_forall in Hcons. now apply Hcons.
  - rewrite (initialRun_listing_fails H params p error w Hlist). cbn.
    split; [right; now exists error|]. intros eff [<-|[]]. now left.
Qed.

Lemma main_when_the_initial_run_throws (params : Params) (p : Process H)
    (error : string) :
  completion (initialRun H params p) = Thrown error ->
  main H params p
  = {| effects := (effects (initialRun H params p)
                   ++ [Stderr (red H error); Exited 1])%list;
       completion := Terminated 1;
       final := final (initialRun H params p) |}.
Proof.
  intros Hthrown. unfold main, bind, try_catch. cbn zeta.
  rewrite Hthrown. cbn iota. unfold console_error, process_exit.
  cbn [effects completion final String.concat app]. reflexivity.
Qed.

(** X1: when adb lists the devices and the command then fails on an
    online device during the initial run, the script prints what it had
    printed so far, writes the error to the error stream and exits with
    code 1, whether continuous mode was asked for or not; the detector is
    left as it was. *)
Theorem initial_execution_failure_exits_with_1 (params : Params)
    (devices pre post : list Device.t) (dk : Device.t) (p : Process H)
    (results : list string) (w0 w1 w2 : World H) (error : string) :
  adb_devices H (world p) = (inl devices, w0) ->
  onlineDevices devices = (pre ++ dk :: post)%list ->
  adb_all H (command params) pre w0 = Some (results, w1) ->
  adb_exec H dk (command params) w1 = (inr error, w2) ->
  main H params p
  = {| effects := (Queried
                   :: detected H devices
                   :: blocks H (command params) pre results
                   ++ header dk ++ [Executed dk (command params)]
                   ++ [Stderr (red H error); Exited 1])%list;
       completion := Terminated 1;
       final := {| world := w2; detector := detector p |} |}.
Proof.
  intros Hlist Hsplit Hall Hfail.
  assert (Hsome : onlineDevices devices <> [])
    by (rewrite Hsplit; now destruct pre).
  assert (Hrun : initialRun H params p
    = {| effects := (Queried :: detected H devices
                     :: blocks H (command params) pre results
                     ++ attempt (command params) dk)%list;
         completion := Thrown error;
         final := {| world := w2; detector := detector p |} |}).
  { rewrite (initialRun_listing_ok H params p devices w0 Hlist). cbn zeta.
    rewrite (executeForOnlineDevices_online H devices _ _ Hsome). cbn zeta.
    rewrite Hsplit,
      (executeCommandOnDevices_prefix H _ pre (dk :: post)
         {| world := w0; detector := detector p |} results w1 Hall).
    cbn zeta. cbn [detector].
    now rewrite (executeCommandOnDevices_fail H dk post (command params)
                   {| world := w1; detector := detector p |} error w2 Hfail). }
  rewrite (main_when_the_initial_run_throws params p error) by now rewrite Hrun.
  rewrite Hrun. cbn [effects final]. f_equal.
  rewrite <- !app_comm_cons. do 2 f_equal. unfold attempt.
  rewrite <- !app_assoc. reflexivity.
Qed.

(** X2: the top level from the [try] block on (lines 44-56: the arguments
    are parsed and the detector is constructed), with thrown values that
    are strings as the source documents them, lets no exception escape.
    Either the initial run returns, and then the top level returns without
    any call of [process.exit]; or the initial run throws, and then the
    top level writes that error to the error stream as its last output and
    calls [process.exit(1)], the only exit these lines make. *)
Theorem main_never_throws (params : Params) (p : Process H) :
  (completion (initialRun H params p) = Normal tt
   /\ completion (main H params p) = Normal tt
   /\ forall code, ~ In (Exited code) (effects (main H params p)))
  \/ (exists error,
        completion (initialRun H params p) = Thrown error
        /\ completion (main H params p) = Terminated 1
        /\ effects (main H params p)
           = (effects (initialRun H params p)
              ++ [Stderr (red H error); Exited 1])%list
        /\ forall code,
             In (Exited code) (effects (main H params p)) -> code = 1%Z).
Proof.
  destruct (initialRun_cases params p) as [[Hok|[error Hthrown]] Heffects].
  - left. split; [exact Hok|].
    rewrite (main_after_the_initial_run H params p Hok). cbn zeta.
    assert (Hnone : forall code, ~ In (Exited code) (effects (initialRun H params p))).
    { intros code Hin. destruct (Heffects _ Hin); discriminate. }
    destruct (continue params); cbn [effects completion final ret executeForFutureDevices].
    + split; [reflexivity|]. intros code. rewrite in_app_iff. intros [Hin|Hin].
      * exact (Hnone code Hin).
      * cbn in Hin. intuition discriminate.
    + split; [reflexivity|]. intros code. rewrite app_nil_r. apply Hnone.
  - right. exists error. split; [exact Hthrown|].
    rewrite (main_when_the_initial_run_throws params p error Hthrown).
    cbn [effects completion]. split; [reflexivity|]. split; [reflexivity|].
    intros code. rewrite in_app_iff. intros [Hin|[Habs|[Hexit|[]]]].
    + destruct (Heffects _ Hin); discriminate.
    + discriminate.
    + now injection Hexit as <-.
Qed.

(** X3: without the continue flag the script leaves the detector alone:
    whatever adb answers, nothing is subscribed and no watch is started or
    stopped; the script only queries the devices, writes to the console,
    runs the command and possibly exits with code 1. *)
Theorem one_shot_mode_leaves_the_detector_alone (params : Params) (p : Process H) :
  continue params = false ->
  detector (final (main H params p)) = detector p
  /\ forall eff,
       In eff (effects (main H params p)) ->
       eff = Queried \/ console_or_command eff = true \/ eff = Exited 1.
Proof.
  intros Honce.
  destruct (initialRun_frame H params p) as [Hdet _].
  destruct (initialRun_cases params p) as [[Hok|[error Hthrown]] Heffects].
  - rewrite (main_after_the_initial_run H params p Hok). cbn zeta.
    rewrite Honce. cbn [effects final ret]. rewrite app_nil_r.
    split; [exact Hdet|]. intros eff Hin.
    destruct (Heffects eff Hin); auto.
  - rewrite (main_when_the_initial_run_throws params p error Hthrown).
    cbn [effects final]. split; [exact Hdet|]. intros eff.
    rewrite in_app_iff. intros [Hin|[<-|[<-|[]]]]; auto.
    destruct (Heffects eff Hin); auto.
Qed.

(** X4: the listener contains every error: whatever the batch and whatever
    adb answers, it returns normally (it neither throws into the detector
    nor ends the process), it leaves the registered listeners as they are,
    and it never starts a watch that was not running. *)
Theorem listener_contains_every_error (params : Params) (devices : list Device.t)
    (p : Process H) :
  completion (newOrChangedDevicesListener H params devices p) = Normal tt
  /\ listeners (detector (final (newOrChangedDevicesListener H params devices p)))
     = listeners (detector p)
  /\ (watching (detector (final (newOrChangedDevicesListener H params devices p)))
      = true ->
      watching (detector p) = true)
  /\ world (final (newOrChangedDevicesListener H params devices p))
     = world (final (executeForOnlineDevices H devices (command params) p)).
Proof.
  destruct (executeForOnlineDevices_frame H devices (command params) p)
    as (Hdet & [Hok|[error Hthrown]] & _).
  - rewrite (listener_when_it_returns H params devices p Hok), Hok, Hdet. auto.
  - rewrite (listener_when_it_throws H params devices p error Hthrown).
    cbn. split; [reflexivity|]. split; [reflexivity|]. split; [discriminate|reflexivity].
Qed.

(** X5: a notification on whose online devices the command succeeds (or
    that has no online device) leaves the detector as it was, so a running
    watch keeps running: the listener does what the one-shot logic does on
    the batch and never calls [unwatch()]. *)
Theorem successful_notification_keeps_the_watch (params : Params)
    (devices : list Device.t) (p : Process H) (results : list string)
    (w : World H) :
  adb_all H (command params) (onlineDevices devices) (world p) = Some (results, w) ->
  newOrChangedDevicesListener H params devices p
  = executeForOnlineDevices H devices (command params) p
  /\ final (newOrChangedDevicesListener H params devices p)
     = {| world := w; detector := detector p |}
  /\ ~ In WatchStopped (effects (newOrChangedDevicesListener H params devices p))
  /\ executions (effects (newOrChangedDevicesListener H params devices p))
     = onlineDevices devices.
Proof.
  intros Hall.
  destruct (executeForOnlineDevices_completion devices (command params) p)
    as (Hcompl & Hexecs & Hworld).
  destruct (executeForOnlineDevices_frame H devices (command params) p)
    as (Hdet & _ & Hcons).
  pose proof (executeCommandOnDevices_prefix H (command params)
                (onlineDevices devices) [] p results w Hall) as Hrun.
  rewrite app_nil_r in Hrun. cbn zeta in Hrun.
  rewrite executeCommandOnDevices_nil in Hrun.
  cbn [effects completion final] in Hrun. rewrite app_nil_r in Hrun.
  rewrite Hrun in Hcompl, Hexecs, Hworld. cbn [effects completion final world] in *.
  rewrite (listener_when_it_returns H params devices p Hcompl).
  split; [reflexivity|]. split; [|split].
  - destruct (final (executeForOnlineDevices H devices (command params) p))
      as [w' d']. cbn in *. now subst.
  - intros Hin. rewrite forallb_forall in Hcons. now apply Hcons in Hin.
  - rewrite Hexecs. apply executions_blocks.
    exact (adb_all_length H _ _ _ _ _ Hall).
Qed.

(** X6: the run over a device list throws exactly when the command fails
    on an online device, and what it throws is the error of the first
    online device on which the command fails; it returns normally exactly
    when the command succeeds on every online device. *)
Theorem executeForOnlineDevices_throws_the_first_failure (devices : list Device.t)
    (cmd : string) (p : Process H) :
  (forall error,
      completion (executeForOnlineDevices H devices cmd p) = Thrown error
      <-> exists pre dk post results w1 w2,
            onlineDevices devices = (pre ++ dk :: post)%list
            /\ adb_all H cmd pre (world p) = Some (results, w1)
            /\ adb_exec H dk cmd w1 = (inr error, w2))
  /\ (completion (executeForOnlineDevices H devices cmd p) = Normal tt
      <-> exists results w,
            adb_all H cmd (onlineDevices devices) (world p) = Some (results, w)).
Proof.
  destruct (executeForOnlineDevices_completion devices cmd p) as (-> & _ & _).
  split.
  - intros error. split.
    + intros Hthrown.
      destruct (executeCommandOnDevices_cases H cmd (onlineDevices devices) p)
        as [(results & w & _ & Hrun)
           |(pre & dk & post & results & w1 & e & w2 & Hsplit & Hall & Hfail & Hrun)];
        rewrite Hrun in Hthrown; cbn in Hthrown; [discriminate|].
      injection Hthrown as <-. now exists pre, dk, post, results, w1, w2.
    + intros (pre & dk & post & results & w1 & w2 & Hsplit & Hall & Hfail).
      rewrite Hsplit,
        (executeCommandOnDevices_prefix H cmd pre (dk :: post) p results w1 Hall).
      cbn zeta.
      now rewrite (executeCommandOnDevices_fail H dk post cmd
                     {| world := w1; detector := detector p |} error w2 Hfail).
  - split.
    + intros Hok.
      destruct (executeCommandOnDevices_cases H cmd (onlineDevices devices) p)
        as [(results & w & Hall & _)
           |(pre & dk & post & results & w1 & e & w2 & _ & _ & _ & Hrun)].
      * now exists results, w.
      * rewrite Hrun in Hok. discriminate.
    + intros (results & w & Hall).
      pose proof (executeCommandOnDevices_prefix H cmd (onlineDevices devices) []
                    p results w Hall) as Hrun.
      rewrite app_nil_r in Hrun. now rewrite Hrun.
Qed.

(** X7: in every run, failed or not, the devices the command was run on
    are an initial part of the online devices of the list, in list order;
    when the run returns normally it is all of them.  The listener runs
    the command on the same devices. *)
Theorem commands_run_on_a_prefix_of_the_online_devices (params : Params)
    (devices : list Device.t) (p : Process H) :
  (exists skipped,
      onlineDevices devices
      = (executions (effects (executeForOnlineDevices H devices (command params) p))
         ++ skipped)%list
      /\ (completion (executeForOnlineDevices H devices (command params) p)
          = Normal tt -> skipped = []))
  /\ executions (effects (newOrChangedDevicesListener H params devices p))
     = executions (effects (executeForOnlineDevices H devices (command params) p)).
Proof.
  split.
  - destruct (executeForOnlineDevices_completion devices (command params) p)
      as (-> & -> & _).
    destruct (executeCommandOnDevices_cases H (command params)
                (onlineDevices devices) p)
      as [(results & w & Hall & ->)
         |(pre & dk & post & results & w1 & e & w2 & -> & Hall & _ & ->)];
      cbn [effects completion].
    + exists []. rewrite app_nil_r.
      now rewrite (executions_blocks H _ _ results (adb_all_length H _ _ _ _ _ Hall)).
    + exists post. split; [|discriminate].
      rewrite executions_app, executions_attempt,
        (executions_blocks H _ pre results (adb_all_length H _ _ _ _ _ Hall)).
      now rewrite <- app_assoc.
  - destruct (executeForOnlineDevices_frame H devices (command params) p)
      as (_ & [Hok|[error Hthrown]] & _).
    + now rewrite (listener_when_it_returns H params devices p Hok).
    + rewrite (listener_when_it_throws H params devices p error Hthrown).
      cbn [effects]. rewrite executions_app. cbn [executions].
      now rewrite app_nil_r.
Qed.

(** X8: the formatted list of two device lists put one after the other is
    the formatted list of the first followed by that of the second. *)
Theorem formatDeviceList_app (a b : list Device.t) :
  formatDeviceList H (a ++ b) = formatDeviceList H a ++ formatDeviceList H b.
Proof.
  rewrite !formatDeviceList_entries. apply entries_app.
Qed.

(** X9: running the command over two device lists put one after the other
    is running it over the first and then, unless that threw, over the
    second, from the world the first run left. *)
Theorem executeCommandOnDevices_app (a b : list Device.t) (cmd : string)
    (p : Process H) :
  executeCommandOnDevices H (a ++ b) cmd p
  = bind H (executeCommandOnDevices H a cmd)
      (fun _ => executeCommandOnDevices H b cmd) p
  /\ (forall error,
        completion (executeCommandOnDevices H a cmd p) = Thrown error ->
        executeCommandOnDevices H (a ++ b) cmd p
        = executeCommandOnDevices H a cmd p).
Proof.
  assert (Happ : executeCommandOnDevices H (a ++ b) cmd p
    = bind H (executeCommandOnDevices H a cmd)
        (fun _ => executeCommandOnDevices H b cmd) p)
    by (unfold executeCommandOnDevices; apply forEach_app).
  split; [exact Happ|]. intros error Hthrown. rewrite Happ. unfold bind.
  rewrite Hthrown. destruct (executeCommandOnDevices H a cmd p) as [eff c fin].
  cbn in *. now rewrite Hthrown.
Qed.

(** X10: the run over a device list only writes to the console and runs
    the given command, and that on online devices of the list only: it
    never queries the devices, subscribes, starts or stops the watch or
    ends the process, and it leaves the detector as it was. *)
Theorem executeForOnlineDevices_only_prints_and_runs (devices : list Device.t)
    (cmd : string) (p : Process H) :
  detector (final (executeForOnlineDevices H devices cmd p)) = detector p
  /\ (forall code,
        completion (executeForOnlineDevices H devices cmd p) <> Terminated code)
  /\ forall eff,
       In eff (effects (executeForOnlineDevices H devices cmd p)) ->
       (exists text, eff = Stdout text \/ eff = Stderr text)
       \/ (exists device,
             eff = Executed device cmd
             /\ In device devices /\ Device.isOnline device = true).
Proof.
  destruct (executeForOnlineDevices_frame H devices cmd p)
    as (Hdet & Hcompl & _).
  split; [exact Hdet|]. split.
  - intros code Hterm. destruct Hcompl as [Hok|[error Hthrown]];
      rewrite Hterm in *; discriminate.
  - destruct (onlineDevices devices) as [|device online] eqn:Hon.
    + destruct (executeForOnlineDevices_none_online devices cmd p Hon) as [_ ->].
      destruct (0 <? length devices)%nat; cbn; intros eff [<-|[]]; left; eauto.
    + assert (Hsome : onlineDevices devices <> []) by (rewrite Hon; discriminate).
      rewrite (executeForOnlineDevices_online H devices cmd p Hsome). cbn zeta.
      cbn [effects]. intros eff [<-|Hin]; [left; unfold detected; eauto|].
      apply run_belongs in Hin. destruct Hin as (d & r & Hd & Hin).
      unfold onlineDevices in Hd. apply filter_In in Hd.
      cbn in Hin.
      destruct Hin as [<-|[<-|[<-|[<-|[<-|[<-|[]]]]]]]; eauto.
Qed.

(** X11: the run over a device list that is not empty writes nothing to
    the error stream: the list of online devices, the results and also the
    report of offline devices go to the standard output. *)
Theorem stderr_only_for_an_empty_list (devices : list Device.t) (cmd : string)
    (p : Process H) :
  devices <> [] ->
  forall text, ~ In (Stderr text) (effects (executeForOnlineDevices H devices cmd p)).
Proof.
  intros Hsome text.
  destruct (onlineDevices devices) as [|device online] eqn:Hon.
  - destruct (executeForOnlineDevices_none_online devices cmd p Hon) as [_ ->].
    rewrite (nonempty_length _ Hsome). cbn. intuition discriminate.
  - assert (Hon' : onlineDevices devices <> []) by (rewrite Hon; discriminate).
    rewrite (executeForOnlineDevices_online H devices cmd p Hon'). cbn zeta.
    cbn [effects]. unfold detected. intros [Habs|Hin]; [discriminate|].
    apply run_belongs in Hin. destruct Hin as (d & r & _ & Hin).
    cbn in Hin. intuition discriminate.
Qed.

End Coverage.

Lemma initial_execution_failure_exits_with_1_witness :
  main scripted forever (boot scripted {| listing := inl [pixel; nexus; tablet];
                                          failing := ["B"] |})
  = {| effects := (Queried
                   :: detected scripted [pixel; nexus; tablet]
                   :: blocks scripted "adb install app.apk" [pixel]
                        ["adb install app.apk done on A"]
                   ++ header nexus ++ [Executed nexus "adb install app.apk"]
                   ++ [Stderr (red scripted "error: adb install app.apk failed on B");
                       Exited 1])%list;
       completion := Terminated 1;
       final := boot scripted {| listing := inl [pixel; nexus; tablet];
                                 failing := ["B"] |} |}.
Proof.
  exact (initial_execution_failure_exits_with_1 scripted forever
           [pixel; nexus; tablet] [pixel] [tablet] nexus
           (boot scripted {| listing := inl [pixel; nexus; tablet]; failing := ["B"] |})
           ["adb install app.apk done on A"]
           {| listing := inl [pixel; nexus; tablet]; failing := ["B"] |}
           {| listing := inl [pixel; nexus; tablet]; failing := ["B"] |}
           {| listing := inl [pixel; nexus; tablet]; failing := ["B"] |}
           "error: adb install app.apk failed on B"
           eq_refl eq_refl eq_refl eq_refl).
Defined.

Lemma one_shot_mode_leaves_the_detector_alone_witness :
  continue once = false
  /\ detector (final (main scripted once started)) = detector started.
Proof.
  split; [reflexivity|].
  exact (proj1 (one_shot_mode_leaves_the_detector_alone scripted once started
                  eq_refl)).
Defined.

Lemma successful_notification_keeps_the_watch_witness :
  watching (detector started) = true
  /\ final (newOrChangedDevicesListener scripted forever [galaxy; pixel] started)
     = Build_Process scripted fragile (detector started).
Proof.
  split; [reflexivity|].
  exact (proj1 (proj2
    (successful_notification_keeps_the_watch scripted forever [galaxy; pixel]
       started ["adb install app.apk done on A"] fragile eq_refl))).
Defined.

Lemma stderr_only_for_an_empty_list_witness :
  ~ In (Stderr (red scripted "no devices detected
"))
       (effects (executeForOnlineDevices scripted [galaxy; moto]
                   "adb install app.apk" (boot scripted calm))).
Proof.
  exact (stderr_only_for_an_empty_list scripted [galaxy; moto]
           "adb install app.apk" (boot scripted calm) ltac:(discriminate)
           (red scripted "no devices detected
")).
Defined.
